(** * EnOcean cover: command encoder and telegram decoder

    A shallow embedding of [cover.py] (class [EnOceanCover]) and the
    properties of its two faces: the commands that emit radio telegrams
    and [value_changed], which decodes an inbound telegram into the
    cover's state. *)

From stdpp Require Import base option list.
From Stdlib Require Import ZArith Lia.

Open Scope Z_scope.

(** ** Data model *)

(** The immutable part of an [EnOceanCover] instance: [self.dev_id],
    [self._sender_id] and [self._reverse].  Identifiers are Python lists
    of integers. *)
Record EnOceanCover := {
  dev_id : list Z;
  sender_id : list Z;
  reverse : bool;
}.

(** The mutable attributes.  [None] is Python's [None]. *)
Record Attrs := {
  is_closed : option bool;
  is_closing : option bool;
  is_opening : option bool;
  current_cover_position : option Z;
}.

(** What a call hands to its collaborators, in call order: a state
    refresh request to the host, or a telegram to the transport. *)
Inductive Event :=
| ScheduleUpdate
| SendCommand (data optional : list Z) (packet_type : Z).

Inductive Exn := IndexError.

Inductive Result (A : Type) :=
| Ok (a : A)
| Raise (e : Exn).
Arguments Ok {A} a.
Arguments Raise {A} e.

(** The outcome of running a method on the object: how it ended, the
    attributes it left behind and the events it produced.  A raised
    exception keeps whatever was mutated and emitted before it. *)
Record Outcome (A : Type) := {
  result : Result A;
  attrs_out : Attrs;
  emitted : list Event;
}.
Arguments result {A} o.
Arguments attrs_out {A} o.
Arguments emitted {A} o.

Definition M (A : Type) : Type := Attrs → Outcome A.

#[export] Instance M_ret : MRet M := λ A a s,
  {| result := Ok a; attrs_out := s; emitted := [] |}.

#[export] Instance M_bind : MBind M := λ A B f m s,
  let o := m s in
  match result o with
  | Ok a =>
      let o' := f a (attrs_out o) in
      {| result := result o';
         attrs_out := attrs_out o';
         emitted := emitted o ++ emitted o' |}
  | Raise e =>
      {| result := Raise e; attrs_out := attrs_out o; emitted := emitted o |}
  end.

Definition raise {A} (e : Exn) : M A := λ s,
  {| result := Raise e; attrs_out := s; emitted := [] |}.

Definition modify (f : Attrs → Attrs) : M unit := λ s,
  {| result := Ok (); attrs_out := f s; emitted := [] |}.

Definition emit (ev : Event) : M unit := λ s,
  {| result := Ok (); attrs_out := s; emitted := [ev] |}.

(** Attribute assignments [self._attr_x = v]. *)
Definition set_is_closed (v : option bool) : M unit :=
  modify (λ s, {| is_closed := v; is_closing := is_closing s;
                  is_opening := is_opening s;
                  current_cover_position := current_cover_position s |}).

Definition set_is_closing (v : option bool) : M unit :=
  modify (λ s, {| is_closed := is_closed s; is_closing := v;
                  is_opening := is_opening s;
                  current_cover_position := current_cover_position s |}).

Definition set_is_opening (v : option bool) : M unit :=
  modify (λ s, {| is_closed := is_closed s; is_closing := is_closing s;
                  is_opening := v;
                  current_cover_position := current_cover_position s |}).

Definition set_current_cover_position (v : option Z) : M unit :=
  modify (λ s, {| is_closed := is_closed s; is_closing := is_closing s;
                  is_opening := is_opening s;
                  current_cover_position := v |}).

(** [l[i]] for a constant non-negative index: Python raises [IndexError]
    out of range. *)
Definition getitem (l : list Z) (i : nat) : M Z :=
  match l !! i with
  | Some x => mret x
  | None => raise IndexError
  end.

(** [l[lo:hi]] for constant [0 <= lo <= hi]: never raises, returns the
    elements that exist. *)
Definition slice (l : list Z) (lo hi : nat) : list Z :=
  take (hi - lo) (drop lo l).

(** [self.schedule_update_ha_state()]. *)
Definition schedule_update_ha_state : M unit := emit ScheduleUpdate.

(** Modelled from the spec: [send_command] of the base class
    [EnOceanEntity] (module [.device]) is not part of the source at hand;
    the spec describes it as a fire-and-forget hand-over of one telegram
    (data, optional, telegram type) to the transport channel. *)
Definition send_command (data optional : list Z) (packet_type : Z) : M unit :=
  emit (SendCommand data optional packet_type).

(** The attributes of a freshly constructed cover: [__init__] sets
    [_attr_is_closed = None]; the other three default to [None] in the
    host's cover entity class. *)
Definition init_attrs : Attrs :=
  {| is_closed := None; is_closing := None; is_opening := None;
     current_cover_position := None |}.

(** ** Command encoder *)

Definition press_up_button (self : EnOceanCover) : M unit :=
  let data := [0xF6; 0x70] in
  let data := data ++ sender_id self in
  let data := data ++ [0x30] in
  let optional := [0x03] in
  let optional := optional ++ dev_id self in
  let optional := optional ++ [0x40] in
  send_command data optional 0x01.

Definition press_down_button (self : EnOceanCover) : M unit :=
  let data := [0xF6; 0x50] in
  let data := data ++ sender_id self in
  let data := data ++ [0x30] in
  let optional := [0x03] in
  let optional := optional ++ dev_id self in
  let optional := optional ++ [0x40] in
  send_command data optional 0x01.

Definition release_button (self : EnOceanCover) : M unit :=
  let data := [0xF6; 0x00] in
  let data := data ++ sender_id self in
  let data := data ++ [0x20] in
  let optional := [0x03] in
  let optional := optional ++ dev_id self in
  let optional := optional ++ [0x40] in
  send_command data optional 0x01.

Definition open_cover (self : EnOceanCover) : M unit :=
  set_is_opening (Some true);;
  schedule_update_ha_state;;
  (if reverse self then press_down_button self else press_up_button self);;
  release_button self.

Definition close_cover (self : EnOceanCover) : M unit :=
  set_is_closing (Some true);;
  schedule_update_ha_state;;
  (if reverse self then press_up_button self else press_down_button self);;
  release_button self.

Definition stop_cover (self : EnOceanCover) : M unit :=
  set_is_closing None;;
  set_is_opening None;;
  schedule_update_ha_state;;
  press_down_button self;;
  release_button self.

Definition open_cover_tilt (self : EnOceanCover) : M unit :=
  set_is_opening (Some true);;
  schedule_update_ha_state;;
  (if reverse self then press_down_button self else press_up_button self);;
  release_button self;;
  (if reverse self then press_down_button self else press_up_button self);;
  release_button self.

Definition close_cover_tilt (self : EnOceanCover) : M unit :=
  set_is_closing (Some true);;
  schedule_update_ha_state;;
  (if reverse self then press_up_button self else press_down_button self);;
  release_button self;;
  (if reverse self then press_up_button self else press_down_button self);;
  release_button self.

Definition stop_cover_tilt (self : EnOceanCover) : M unit :=
  set_is_closing None;;
  set_is_opening None;;
  schedule_update_ha_state;;
  press_down_button self;;
  release_button self.

(** ** Telegram decoder *)

(** [packet] is represented by its [data] field, the only part read.
    The [and] of the guard evaluates its right operand only when the
    left one holds; each early [return] ends its branch. *)
Definition value_changed (self : EnOceanCover) (packet_data : list Z) : M unit :=
  d0 ← getitem packet_data 0;
  if bool_decide (d0 = 0xD2) && bool_decide (slice packet_data 5 8 = dev_id self)
  then
    val ← getitem packet_data 1;
    if val =? 0x7F then
      set_is_closed None;;
      schedule_update_ha_state
    else
      set_is_closing None;;
      set_is_opening None;;
      if val =? 0x00 then
        set_current_cover_position (Some 0);;
        set_is_closed (Some false);;
        schedule_update_ha_state
      else if val =? 0x64 then
        set_current_cover_position (Some 100);;
        set_is_closed (Some true);;
        schedule_update_ha_state
      else
        set_current_cover_position (Some val);;
        schedule_update_ha_state
  else
    mret ().

(** ** The device as a transition system *)

Inductive Action := Open | Close | Stop | OpenTilt | CloseTilt | StopTilt.

(** One interaction with the device: the host calls a command, or the
    transport delivers a packet to [value_changed]. *)
Inductive Input :=
| Command (a : Action)
| Telegram (packet_data : list Z).

Definition perform (self : EnOceanCover) (a : Action) : M unit :=
  match a with
  | Open => open_cover self
  | Close => close_cover self
  | Stop => stop_cover self
  | OpenTilt => open_cover_tilt self
  | CloseTilt => close_cover_tilt self
  | StopTilt => stop_cover_tilt self
  end.

Definition handle (self : EnOceanCover) (i : Input) : M unit :=
  match i with
  | Command a => perform self a
  | Telegram packet_data => value_changed self packet_data
  end.

(** The attributes after a sequence of interactions.  An exception
    propagates to the caller of that one interaction; the object lives
    on with the attributes it had when the exception was raised. *)
Definition run (self : EnOceanCover) (inputs : list Input) (s : Attrs) : Attrs :=
  foldl (λ s i, attrs_out (handle self i s)) s inputs.

(** The telegrams among the events of a call, in order. *)
Record Sent := {
  sent_data : list Z;
  sent_optional : list Z;
  sent_type : Z;
}.

Fixpoint telegrams (evs : list Event) : list Sent :=
  match evs with
  | [] => []
  | ScheduleUpdate :: evs => telegrams evs
  | SendCommand d o t :: evs =>
      {| sent_data := d; sent_optional := o; sent_type := t |} :: telegrams evs
  end.

(** The number of refresh requests among the events of a call. *)
Fixpoint notifications (evs : list Event) : nat :=
  match evs with
  | [] => 0%nat
  | ScheduleUpdate :: evs => S (notifications evs)
  | SendCommand _ _ _ :: evs => notifications evs
  end.

(** A sample device: three-byte target address, four-byte sender. *)
Definition sample_cover (rev : bool) : EnOceanCover :=
  {| dev_id := [0x05; 0x1A; 0x2B];
     sender_id := [0xFF; 0xD9; 0x7F; 0x81];
     reverse := rev |}.

Definition sample_packet (val : Z) : list Z :=
  [0xD2; val; 0x00; 0x00; 0x00; 0x05; 0x1A; 0x2B; 0x00; 0x00].

(** ** Vocabulary of the properties *)

(** The telegram layout named by the specification: the data field is
    [0xF6], the subcommand, the sender identifier and the status byte;
    the optional field is [0x03], the device identifier and [0x40]; the
    telegram type is [0x01]. *)
Definition telegram_layout (self : EnOceanCover) (subcommand status : Z) : Event :=
  SendCommand ([0xF6; subcommand] ++ sender_id self ++ [status])
              ([0x03] ++ dev_id self ++ [0x40]) 0x01.

(** The packet is one the decoder ignores, or its value byte is a
    position in 0..100 or the moving sentinel [0x7F]: only a telegram
    that passes the guard of this device is constrained. *)
Definition value_byte_ok (self : EnOceanCover) (i : Input) : bool :=
  match i with
  | Command _ => true
  | Telegram packet_data =>
      match packet_data !! 0%nat, packet_data !! 1%nat with
      | Some d0, Some val =>
          if bool_decide (d0 = 0xD2)
             && bool_decide (slice packet_data 5 8 = dev_id self)
          then (0 <=? val) && (val <=? 100) || (val =? 0x7F)
          else true
      | _, _ => true
      end
  end.

Definition position_in_range (s : Attrs) : Prop :=
  ∀ p, current_cover_position s = Some p → 0 ≤ p ≤ 100.

(** The decoder's guard: the packet is a VLD telegram addressed by
    bytes 5..7 to this device. *)
Definition relevant (self : EnOceanCover) (packet_data : list Z) : Prop :=
  packet_data !! 0%nat = Some 0xD2 ∧ slice packet_data 5 8 = dev_id self.

(** One button press followed by its release, as events. *)
Definition press_release (self : EnOceanCover) (subcommand : Z) : list Event :=
  [telegram_layout self subcommand 0x30; telegram_layout self 0x00 0x20].

(** How many press/release pairs a command sends. *)
Definition pulses (a : Action) : nat :=
  match a with
  | OpenTilt | CloseTilt => 2%nat
  | Open | Close | Stop | StopTilt => 1%nat
  end.

(** The subcommand byte of the button a command presses. *)
Definition button_of (self : EnOceanCover) (a : Action) : Z :=
  match a with
  | Open | OpenTilt => if reverse self then 0x50 else 0x70
  | Close | CloseTilt => if reverse self then 0x70 else 0x50
  | Stop | StopTilt => 0x50
  end.

Definition is_command (i : Input) : bool :=
  match i with
  | Command _ => true
  | Telegram _ => false
  end.

(** The outcome of a call that does nothing. *)
Definition no_effect (s : Attrs) : Outcome unit :=
  {| result := Ok (); attrs_out := s; emitted := [] |}.

(** A sample device configured with a four-byte target address. *)
Definition long_id_cover : EnOceanCover :=
  {| dev_id := [0x05; 0x1A; 0x2B; 0x3C];
     sender_id := [0xFF; 0xD9; 0x7F; 0x81];
     reverse := false |}.

(** The attributes a command leaves: it writes motion flags only. *)
Definition after_command (a : Action) (s : Attrs) : Attrs :=
  match a with
  | Open | OpenTilt =>
      {| is_closed := is_closed s; is_closing := is_closing s;
         is_opening := Some true;
         current_cover_position := current_cover_position s |}
  | Close | CloseTilt =>
      {| is_closed := is_closed s; is_closing := Some true;
         is_opening := is_opening s;
         current_cover_position := current_cover_position s |}
  | Stop | StopTilt =>
      {| is_closed := is_closed s; is_closing := None;
         is_opening := None;
         current_cover_position := current_cover_position s |}
  end.

(** The attributes a relevant telegram with value byte [val] leaves. *)
Definition after_telegram (val : Z) (s : Attrs) : Attrs :=
  if val =? 0x7F then
    {| is_closed := None; is_closing := is_closing s;
       is_opening := is_opening s;
       current_cover_position := current_cover_position s |}
  else
    {| is_closed := if val =? 0x00 then Some false
                    else if val =? 0x64 then Some true
                    else is_closed s;
       is_closing := None; is_opening := None;
       current_cover_position := Some val |}.

(** ** Reasoning support *)

(** Unfolds the method bodies down to the outcome records. *)
Ltac unfold_methods :=
  unfold perform, handle,
    open_cover, close_cover, stop_cover,
    open_cover_tilt, close_cover_tilt, stop_cover_tilt,
    press_up_button, press_down_button, release_button,
    send_command, schedule_update_ha_state,
    set_is_closed, set_is_closing, set_is_opening,
    set_current_cover_position, modify, emit, raise in *;
  unfold mbind, M_bind, mret, M_ret in *.

(** Splits [value_changed] along the tests it performs, in source order. *)
Ltac decode_cases :=
  unfold value_changed, getitem; unfold_methods;
  repeat match goal with
  | |- context [match ?l !! ?i with _ => _ end] =>
      let E := fresh "Hget" in destruct (l !! i) eqn:E; simpl
  | |- context [bool_decide ?P] =>
      let E := fresh "Hdec" in destruct (bool_decide P) eqn:E; simpl
  | |- context [Z.eqb ?a ?b] =>
      let E := fresh "Hval" in destruct (Z.eqb a b) eqn:E; simpl
  end.

Lemma slice_length (l : list Z) (lo hi : nat) :
  (length (slice l lo hi) ≤ length l - lo)%nat.
Proof.
  unfold slice. rewrite length_take, length_drop. lia.
Qed.

(** The guard of the decoder as a proposition. *)
Lemma relevant_guard (self : EnOceanCover) (packet_data : list Z) (d0 : Z) :
  bool_decide (d0 = 0xD2) && bool_decide (slice packet_data 5 8 = dev_id self) = true
  ↔ d0 = 0xD2 ∧ slice packet_data 5 8 = dev_id self.
Proof.
  rewrite andb_true_iff, !bool_decide_eq_true. reflexivity.
Qed.

(** Left identity of the monad, pointwise. *)
Lemma mret_bind {A B : Type} (a : A) (f : A → M B) (s : Attrs) :
  (mret a ≫= f) s = f a s.
Proof.
  unfold mbind, M_bind, mret, M_ret. simpl. destruct (f a s); reflexivity.
Qed.

(** A relevant packet with value byte [val] reaches the decision on [val]. *)
Lemma value_changed_relevant (self : EnOceanCover) (packet_data : list Z)
    (val : Z) (s : Attrs) :
  packet_data !! 0%nat = Some 0xD2 →
  slice packet_data 5 8 = dev_id self →
  packet_data !! 1%nat = Some val →
  value_changed self packet_data s =
    (if val =? 0x7F then
       set_is_closed None;; schedule_update_ha_state
     else
       set_is_closing None;;
       set_is_opening None;;
       if val =? 0x00 then
         set_current_cover_position (Some 0);;
         set_is_closed (Some false);;
         schedule_update_ha_state
       else if val =? 0x64 then
         set_current_cover_position (Some 100);;
         set_is_closed (Some true);;
         schedule_update_ha_state
       else
         set_current_cover_position (Some val);;
         schedule_update_ha_state) s.
Proof.
  intros H0 Hid H1. unfold value_changed, getitem.
  rewrite H0, H1, Hid, mret_bind.
  rewrite !bool_decide_eq_true_2 by reflexivity.
  simpl. apply mret_bind.
Qed.

(** The decoder raises exactly when an index it reads is missing: on an
    empty data field, or on the one-byte packet [[0xD2]] of a device
    configured with an empty identifier. *)
Lemma value_changed_raises_iff (self : EnOceanCover) (packet_data : list Z)
    (s : Attrs) :
  result (value_changed self packet_data s) = Raise IndexError
  ↔ packet_data = [] ∨ (packet_data = [0xD2] ∧ dev_id self = []).
Proof.
  destruct packet_data as [|d0 [|d1 rest]].
  - split; [now left | reflexivity].
  - unfold value_changed, getitem; unfold_methods; simpl.
    unfold slice; simpl.
    repeat case_bool_decide; simpl; split;
      try discriminate; try reflexivity.
    + intros _. right. split; congruence.
    + intros [Hnil | [Hone Hid]]; [discriminate | congruence].
    + intros [Hnil | [Hone Hid]]; [discriminate | congruence].
    + intros [Hnil | [Hone Hid]]; [discriminate | congruence].
  - split.
    + decode_cases; discriminate.
    + intros [H | [H _]]; discriminate.
Qed.

(** ** The decoder on relevant packets *)

(** C1 (as the code has it): a relevant telegram whose value byte [val]
    lies in 0..100 is decoded without an exception into position [val]
    with both motion flags cleared and one refresh request; the closed
    flag becomes open at [val = 0x00], closed at [val = 0x64] and keeps
    the value it had before the call for every other such [val]. *)
Theorem value_changed_stopped_position (self : EnOceanCover)
    (packet_data : list Z) (val : Z) (s : Attrs) :
  packet_data !! 0%nat = Some 0xD2 →
  slice packet_data 5 8 = dev_id self →
  packet_data !! 1%nat = Some val →
  0 ≤ val ≤ 100 →
  result (value_changed self packet_data s) = Ok ()
  ∧ current_cover_position (attrs_out (value_changed self packet_data s)) = Some val
  ∧ is_opening (attrs_out (value_changed self packet_data s)) = None
  ∧ is_closing (attrs_out (value_changed self packet_data s)) = None
  ∧ is_closed (attrs_out (value_changed self packet_data s))
    = (if val =? 0x00 then Some false
       else if val =? 0x64 then Some true
       else is_closed s)
  ∧ emitted (value_changed self packet_data s) = [ScheduleUpdate].
Proof.
  intros H0 Hid H1 Hrange.
  rewrite (value_changed_relevant self packet_data val s H0 Hid H1).
  destruct (val =? 0x7F) eqn:E7F; [apply Z.eqb_eq in E7F; lia |].
  destruct (val =? 0x00) eqn:E00; [|destruct (val =? 0x64) eqn:E64].
  - apply Z.eqb_eq in E00. subst val. unfold_methods; simpl. repeat split.
  - apply Z.eqb_eq in E64. subst val. unfold_methods; simpl. repeat split.
  - unfold_methods; simpl. repeat split.
Qed.

Lemma value_changed_stopped_position_witness :
  let s := attrs_out (value_changed (sample_cover false) (sample_packet 0x7F)
                        init_attrs) in
  let o := value_changed (sample_cover false) (sample_packet 0x63) s in
  result o = Ok ()
  ∧ current_cover_position (attrs_out o) = Some 0x63
  ∧ is_opening (attrs_out o) = None
  ∧ is_closing (attrs_out o) = None
  ∧ is_closed (attrs_out o) = None
  ∧ emitted o = [ScheduleUpdate].
Proof.
  apply (value_changed_stopped_position (sample_cover false)
           (sample_packet 0x63) 0x63);
    [reflexivity | reflexivity | reflexivity | lia].
Defined.

(** C1, as stated, fails: after the cover reported closed ([0x64]), a
    telegram with [val = 0x01] moves the position to 1 while the closed
    flag still says closed, not unknown. *)
Lemma value_changed_keeps_stale_closed_flag :
  let s := run (sample_cover false)
             [Telegram (sample_packet 0x64); Telegram (sample_packet 0x01)]
             init_attrs in
  current_cover_position s = Some 1 ∧ is_closed s = Some true ∧ is_closed s ≠ None.
Proof.
  vm_compute. repeat split; discriminate.
Qed.

(** C4: a relevant telegram with value byte [0x7F] sets the closed flag
    to unknown and leaves position and both motion flags as they were,
    from every prior state; it asks for one refresh. *)
Theorem value_changed_moving (self : EnOceanCover) (packet_data : list Z)
    (s : Attrs) :
  packet_data !! 0%nat = Some 0xD2 →
  slice packet_data 5 8 = dev_id self →
  packet_data !! 1%nat = Some 0x7F →
  result (value_changed self packet_data s) = Ok ()
  ∧ is_closed (attrs_out (value_changed self packet_data s)) = None
  ∧ current_cover_position (attrs_out (value_changed self packet_data s))
    = current_cover_position s
  ∧ is_opening (attrs_out (value_changed self packet_data s)) = is_opening s
  ∧ is_closing (attrs_out (value_changed self packet_data s)) = is_closing s
  ∧ emitted (value_changed self packet_data s) = [ScheduleUpdate].
Proof.
  intros H0 Hid H1.
  rewrite (value_changed_relevant self packet_data 0x7F s H0 Hid H1).
  unfold_methods; simpl. repeat split.
Qed.

Lemma value_changed_moving_witness :
  let s := attrs_out (close_cover (sample_cover true) init_attrs) in
  let o := value_changed (sample_cover true) (sample_packet 0x7F) s in
  result o = Ok ()
  ∧ is_closed (attrs_out o) = None
  ∧ current_cover_position (attrs_out o) = current_cover_position s
  ∧ is_opening (attrs_out o) = is_opening s
  ∧ is_closing (attrs_out o) = is_closing s
  ∧ emitted o = [ScheduleUpdate].
Proof.
  apply (value_changed_moving (sample_cover true) (sample_packet 0x7F));
    reflexivity.
Defined.

(** ** The decoder on irrelevant and short packets *)

(** The guard: unless the first byte is [0xD2] and bytes 5..7 are the
    device identifier, nothing is written and nothing is emitted. *)
Lemma value_changed_guard_fails (self : EnOceanCover) (packet_data : list Z)
    (s : Attrs) :
  packet_data !! 0%nat ≠ Some 0xD2 ∨ slice packet_data 5 8 ≠ dev_id self →
  attrs_out (value_changed self packet_data s) = s
  ∧ emitted (value_changed self packet_data s) = []
  ∧ (is_Some (packet_data !! 0%nat) →
     result (value_changed self packet_data s) = Ok ()).
Proof.
  intros Hirr. unfold value_changed, getitem.
  destruct (packet_data !! 0%nat) as [d0|] eqn:H0.
  - rewrite mret_bind.
    destruct (bool_decide (d0 = 0xD2) && bool_decide (slice packet_data 5 8 = dev_id self))
      eqn:Hguard.
    + apply relevant_guard in Hguard as [-> Hid].
      destruct Hirr as [Hne | Hne]; [congruence | contradiction].
    + repeat split.
  - repeat split. intros [x Hx]. discriminate.
Qed.

(** C3: a packet whose first data byte is not [0xD2] (or is missing), or
    whose bytes 5..7 differ from the device identifier, leaves every
    attribute as it was and produces no event, so no refresh request;
    when the packet has a first byte the call returns normally. *)
Theorem value_changed_irrelevant (self : EnOceanCover) (packet_data : list Z)
    (s : Attrs) :
  packet_data !! 0%nat ≠ Some 0xD2 ∨ slice packet_data 5 8 ≠ dev_id self →
  attrs_out (value_changed self packet_data s) = s
  ∧ emitted (value_changed self packet_data s) = []
  ∧ notifications (emitted (value_changed self packet_data s)) = 0%nat
  ∧ (is_Some (packet_data !! 0%nat) →
     result (value_changed self packet_data s) = Ok ()).
Proof.
  intros Hirr.
  destruct (value_changed_guard_fails self packet_data s Hirr) as (Ha & He & Hr).
  rewrite He. repeat split; assumption.
Qed.

Lemma value_changed_irrelevant_witness :
  let s := attrs_out (open_cover (sample_cover false) init_attrs) in
  let other := [0xD2; 0x32; 0x00; 0x00; 0x00; 0x05; 0x1A; 0x2C; 0x00; 0x00] in
  attrs_out (value_changed (sample_cover false) other s) = s
  ∧ emitted (value_changed (sample_cover false) other s) = []
  ∧ notifications (emitted (value_changed (sample_cover false) other s)) = 0%nat
  ∧ result (value_changed (sample_cover false) other s) = Ok ().
Proof.
  intros s other.
  destruct (value_changed_irrelevant (sample_cover false) other s)
    as (Ha & He & Hn & Hr).
  - right. vm_compute. discriminate.
  - split; [exact Ha | split; [exact He | split; [exact Hn |]]].
    apply Hr. exists 0xD2. reflexivity.
Defined.

(** C5 (as the code has it): for a device whose identifier has at least
    three bytes, every packet with a non-empty data field is decoded
    without an exception, and every packet with fewer than eight data
    bytes leaves the attributes as they were and produces no event. *)
Theorem value_changed_short_packet (self : EnOceanCover)
    (packet_data : list Z) (s : Attrs) :
  (3 ≤ length (dev_id self))%nat →
  (packet_data ≠ [] → result (value_changed self packet_data s) = Ok ())
  ∧ ((length packet_data < 8)%nat →
     attrs_out (value_changed self packet_data s) = s
     ∧ emitted (value_changed self packet_data s) = []).
Proof.
  intros Hid. split.
  - intros Hne.
    destruct (result (value_changed self packet_data s)) as [[]|[]] eqn:Hres;
      [reflexivity |].
    apply value_changed_raises_iff in Hres as [Hnil | [_ Hempty]];
      [contradiction |].
    rewrite Hempty in Hid. simpl in Hid. lia.
  - intros Hshort.
    destruct (value_changed_guard_fails self packet_data s) as (Ha & He & _);
      [| split; assumption].
    right. intros Heq.
    pose proof (slice_length packet_data 5 8) as Hlen.
    rewrite Heq in Hlen. lia.
Qed.

Lemma value_changed_short_packet_witness :
  let short := [0xD2; 0x32; 0x00; 0x00; 0x00; 0x05; 0x1A] in
  result (value_changed (sample_cover false) short init_attrs) = Ok ()
  ∧ attrs_out (value_changed (sample_cover false) short init_attrs) = init_attrs
  ∧ emitted (value_changed (sample_cover false) short init_attrs) = [].
Proof.
  intros short.
  destruct (value_changed_short_packet (sample_cover false) short init_attrs)
    as [Hret Hnoop].
  - simpl. lia.
  - split; [apply Hret; discriminate | apply Hnoop; simpl; lia].
Defined.

(** C5, as stated, fails: on an empty data field the read of
    [packet.data[0]] raises [IndexError]. *)
Lemma value_changed_empty_data_raises :
  result (value_changed (sample_cover false) [] init_attrs) = Raise IndexError.
Proof. reflexivity. Qed.

(** C10: decoding the same packet a second time ends the same way,
    leaves the attributes of the first decoding in place and produces
    the same events again, from every state and for every packet. *)
Theorem value_changed_idempotent (self : EnOceanCover) (packet_data : list Z)
    (s : Attrs) :
  attrs_out (value_changed self packet_data
               (attrs_out (value_changed self packet_data s)))
  = attrs_out (value_changed self packet_data s)
  ∧ result (value_changed self packet_data
              (attrs_out (value_changed self packet_data s)))
    = result (value_changed self packet_data s)
  ∧ emitted (value_changed self packet_data
               (attrs_out (value_changed self packet_data s)))
    = emitted (value_changed self packet_data s).
Proof.
  decode_cases; repeat split.
Qed.

(** ** The command encoder *)

Lemma press_up_button_emits (self : EnOceanCover) (s : Attrs) :
  press_up_button self s =
    {| result := Ok (); attrs_out := s;
       emitted := [telegram_layout self 0x70 0x30] |}.
Proof. reflexivity. Qed.

Lemma press_down_button_emits (self : EnOceanCover) (s : Attrs) :
  press_down_button self s =
    {| result := Ok (); attrs_out := s;
       emitted := [telegram_layout self 0x50 0x30] |}.
Proof. reflexivity. Qed.

Lemma release_button_emits (self : EnOceanCover) (s : Attrs) :
  release_button self s =
    {| result := Ok (); attrs_out := s;
       emitted := [telegram_layout self 0x00 0x20] |}.
Proof. reflexivity. Qed.

(** The events of each command, in call order. *)
Lemma perform_emits (self : EnOceanCover) (a : Action) (s : Attrs) :
  let up := telegram_layout self 0x70 0x30 in
  let down := telegram_layout self 0x50 0x30 in
  let release := telegram_layout self 0x00 0x20 in
  emitted (perform self a s) =
    match a with
    | Open => [ScheduleUpdate; if reverse self then down else up; release]
    | Close => [ScheduleUpdate; if reverse self then up else down; release]
    | Stop | StopTilt => [ScheduleUpdate; down; release]
    | OpenTilt =>
        [ScheduleUpdate; if reverse self then down else up; release;
         if reverse self then down else up; release]
    | CloseTilt =>
        [ScheduleUpdate; if reverse self then up else down; release;
         if reverse self then up else down; release]
    end.
Proof.
  destruct a, (reverse self) eqn:Hrev; unfold_methods; rewrite ?Hrev;
    reflexivity.
Qed.

(** No command raises. *)
Lemma perform_returns (self : EnOceanCover) (a : Action) (s : Attrs) :
  result (perform self a s) = Ok ().
Proof.
  destruct a, (reverse self) eqn:Hrev; unfold_methods; rewrite ?Hrev;
    reflexivity.
Qed.

(** C2: press-up, press-down and release each send one telegram of the
    layout [data = [0xF6, subcommand] ++ senderId ++ [statusByte]],
    [optional = [0x03] ++ deviceId ++ [0x40]], type [0x01], with
    subcommand and status [0x70]/[0x30], [0x50]/[0x30] and [0x00]/[0x20];
    every telegram sent by any of the six commands is one of these three. *)
Theorem outbound_telegram_layout (self : EnOceanCover) (s : Attrs) :
  emitted (press_up_button self s) =
    [SendCommand ([0xF6; 0x70] ++ sender_id self ++ [0x30])
                 ([0x03] ++ dev_id self ++ [0x40]) 0x01]
  ∧ emitted (press_down_button self s) =
    [SendCommand ([0xF6; 0x50] ++ sender_id self ++ [0x30])
                 ([0x03] ++ dev_id self ++ [0x40]) 0x01]
  ∧ emitted (release_button self s) =
    [SendCommand ([0xF6; 0x00] ++ sender_id self ++ [0x20])
                 ([0x03] ++ dev_id self ++ [0x40]) 0x01]
  ∧ ∀ (a : Action) (t : Sent),
      t ∈ telegrams (emitted (perform self a s)) →
      ∃ subcommand status,
        (subcommand, status) ∈ [(0x70, 0x30); (0x50, 0x30); (0x00, 0x20)]
        ∧ sent_data t = [0xF6; subcommand] ++ sender_id self ++ [status]
        ∧ sent_optional t = [0x03] ++ dev_id self ++ [0x40]
        ∧ sent_type t = 0x01.
Proof.
  repeat split; try reflexivity.
  intros a t Hin. rewrite perform_emits in Hin.
  destruct a, (reverse self); simpl in Hin;
    repeat (apply elem_of_cons in Hin as [-> | Hin]);
    try (apply elem_of_nil in Hin; contradiction);
    first [ exists 0x70, 0x30; split; [rewrite !elem_of_cons; auto |];
            split; [reflexivity | split; reflexivity]
          | exists 0x50, 0x30; split; [rewrite !elem_of_cons; auto |];
            split; [reflexivity | split; reflexivity]
          | exists 0x00, 0x20; split; [rewrite !elem_of_cons; auto |];
            split; [reflexivity | split; reflexivity] ].
Qed.

(** C6: with the same identifiers, opening a reversed cover sends the
    telegrams that closing a normal one sends, closing a reversed cover
    those of opening a normal one, and stopping sends press-down then
    release in either orientation. *)
Theorem orientation_symmetry (dev sender : list Z) (s s' : Attrs) :
  let normal := {| dev_id := dev; sender_id := sender; reverse := false |} in
  let reversed := {| dev_id := dev; sender_id := sender; reverse := true |} in
  telegrams (emitted (open_cover reversed s))
  = telegrams (emitted (close_cover normal s'))
  ∧ telegrams (emitted (close_cover reversed s))
    = telegrams (emitted (open_cover normal s'))
  ∧ telegrams (emitted (stop_cover reversed s))
    = telegrams (emitted (stop_cover normal s'))
  ∧ telegrams (emitted (stop_cover normal s'))
    = telegrams (emitted (press_down_button normal s'))
      ++ telegrams (emitted (release_button normal s')).
Proof.
  repeat split.
Qed.

(** C7: on a cover that is not reversed, [close_cover_tilt] sends
    exactly four telegrams, press-down, release, press-down, release,
    whose subcommand bytes [data[1]] are [0x50, 0x00, 0x50, 0x00]. *)
Theorem close_cover_tilt_sequence (self : EnOceanCover) (s : Attrs) :
  reverse self = false →
  telegrams (emitted (close_cover_tilt self s))
  = telegrams (emitted (press_down_button self s)
               ++ emitted (release_button self s)
               ++ emitted (press_down_button self s)
               ++ emitted (release_button self s))
  ∧ length (telegrams (emitted (close_cover_tilt self s))) = 4%nat
  ∧ map (λ t, sent_data t !! 1%nat) (telegrams (emitted (close_cover_tilt self s)))
    = [Some 0x50; Some 0x00; Some 0x50; Some 0x00].
Proof.
  intros Hrev. unfold_methods. rewrite Hrev. repeat split.
Qed.

Lemma close_cover_tilt_sequence_witness :
  let self := sample_cover false in
  telegrams (emitted (close_cover_tilt self init_attrs))
  = telegrams (emitted (press_down_button self init_attrs)
               ++ emitted (release_button self init_attrs)
               ++ emitted (press_down_button self init_attrs)
               ++ emitted (release_button self init_attrs))
  ∧ length (telegrams (emitted (close_cover_tilt self init_attrs))) = 4%nat
  ∧ map (λ t, sent_data t !! 1%nat)
      (telegrams (emitted (close_cover_tilt self init_attrs)))
    = [Some 0x50; Some 0x00; Some 0x50; Some 0x00].
Proof.
  apply (close_cover_tilt_sequence (sample_cover false)). reflexivity.
Defined.

(** ** Motion flags *)

Lemma run_app (self : EnOceanCover) (xs ys : list Input) (s : Attrs) :
  run self (xs ++ ys) s = run self ys (run self xs s).
Proof. unfold run. apply foldl_app. Qed.

(** C8 (as the code has it): the two motion flags are independent.
    [open_cover] sets the opening flag and leaves the closing flag as it
    was before the call, [close_cover] sets the closing flag and leaves
    the opening flag as it was, [stop_cover] clears both; so after a stop
    followed by an open (or a close), from any reachable state, exactly
    the opening (or the closing) flag is set. *)
Theorem open_close_motion_flags (self : EnOceanCover) (s : Attrs) :
  is_opening (attrs_out (open_cover self s)) = Some true
  ∧ is_closing (attrs_out (open_cover self s)) = is_closing s
  ∧ is_closing (attrs_out (close_cover self s)) = Some true
  ∧ is_opening (attrs_out (close_cover self s)) = is_opening s
  ∧ is_opening (attrs_out (stop_cover self s)) = None
  ∧ is_closing (attrs_out (stop_cover self s)) = None
  ∧ (∀ inputs : list Input,
       is_opening (run self (inputs ++ [Command Stop; Command Open]) s) = Some true
       ∧ is_closing (run self (inputs ++ [Command Stop; Command Open]) s) = None)
  ∧ (∀ inputs : list Input,
       is_closing (run self (inputs ++ [Command Stop; Command Close]) s) = Some true
       ∧ is_opening (run self (inputs ++ [Command Stop; Command Close]) s) = None).
Proof.
  split; [| split; [| split; [| split; [| split; [| split; [| split]]]]]];
    try (unfold_methods; destruct (reverse self); reflexivity).
  - intros inputs. rewrite run_app. generalize (run self inputs s) as s1.
    intros s1. unfold run; simpl. unfold_methods.
    destruct (reverse self); split; reflexivity.
  - intros inputs. rewrite run_app. generalize (run self inputs s) as s1.
    intros s1. unfold run; simpl. unfold_methods.
    destruct (reverse self); split; reflexivity.
Qed.

(** C8, as stated, fails: a close followed by an open leaves both the
    opening and the closing flag set. *)
Lemma close_then_open_sets_both_flags :
  let s := run (sample_cover false) [Command Close; Command Open] init_attrs in
  is_opening s = Some true ∧ is_closing s = Some true.
Proof. split; reflexivity. Qed.

(** ** Position range *)

(** Commands never write the position. *)
Lemma perform_keeps_position (self : EnOceanCover) (a : Action) (s : Attrs) :
  current_cover_position (attrs_out (perform self a s)) = current_cover_position s.
Proof.
  destruct a; unfold_methods; destruct (reverse self); reflexivity.
Qed.

Lemma handle_position_in_range (self : EnOceanCover) (i : Input) (s : Attrs) :
  value_byte_ok self i = true →
  position_in_range s →
  position_in_range (attrs_out (handle self i s)).
Proof.
  intros Hok Hs. destruct i as [a | packet_data].
  - intros p. simpl. rewrite perform_keeps_position. apply Hs.
  - simpl in Hok |- *. revert Hok. unfold position_in_range in *.
    decode_cases; intros Hok p Hp; simpl in Hp;
      try (apply Hs; exact Hp);
      injection Hp as <-; lia.
Qed.

Lemma run_position_in_range (self : EnOceanCover) (inputs : list Input)
    (s : Attrs) :
  forallb (value_byte_ok self) inputs = true →
  position_in_range s →
  position_in_range (run self inputs s).
Proof.
  revert s. induction inputs as [| i inputs IH]; intros s Hall Hs.
  - exact Hs.
  - simpl in Hall. apply andb_true_iff in Hall as [Hi Hrest].
    unfold run; simpl. apply IH; [exact Hrest |].
    apply handle_position_in_range; assumption.
Qed.

(** C9 (as the code has it): after any sequence of commands and
    delivered packets in which every relevant telegram (first byte
    [0xD2], bytes 5..7 the device identifier) has a value byte that is a
    position in 0..100 or the moving sentinel [0x7F], starting from a
    fresh cover, a known position lies in 0..100.  Packets the decoder
    ignores may carry any bytes. *)
Theorem position_stays_in_range (self : EnOceanCover) (inputs : list Input)
    (p : Z) :
  forallb (value_byte_ok self) inputs = true →
  current_cover_position (run self inputs init_attrs) = Some p →
  0 ≤ p ≤ 100.
Proof.
  intros Hall Hp.
  apply (run_position_in_range self inputs init_attrs Hall); [| exact Hp].
  intros q Hq. discriminate.
Qed.

Lemma position_stays_in_range_witness :
  let inputs := [Command Close; Telegram (sample_packet 0x7F);
                 Telegram [0xF6; 0x70; 0xFF; 0xD9; 0x7F; 0x81; 0x30];
                 Telegram [0xD2; 0xC8; 0x00; 0x00; 0x00; 0x05; 0x1A; 0x2C; 0x00; 0x00];
                 Telegram (sample_packet 0x63); Command Open] in
  forallb (value_byte_ok (sample_cover false)) inputs = true
  ∧ current_cover_position (run (sample_cover false) inputs init_attrs) = Some 0x63
  ∧ 0 ≤ 0x63 ≤ 100.
Proof.
  split; [reflexivity | split; [reflexivity |]].
  apply (position_stays_in_range (sample_cover false)
           [Command Close; Telegram (sample_packet 0x7F);
            Telegram [0xF6; 0x70; 0xFF; 0xD9; 0x7F; 0x81; 0x30];
            Telegram [0xD2; 0xC8; 0x00; 0x00; 0x00; 0x05; 0x1A; 0x2C; 0x00; 0x00];
            Telegram (sample_packet 0x63); Command Open] 0x63);
    reflexivity.
Defined.

(** C9, as stated, fails: a relevant telegram with value byte [0xC8]
    makes the position 200. *)
Lemma value_changed_position_out_of_range :
  current_cover_position
    (run (sample_cover false) [Telegram (sample_packet 0xC8)] init_attrs)
  = Some 200.
Proof. reflexivity. Qed.

(** ** Normal forms of the methods *)

(** The whole outcome of a command: it returns normally, writes the
    motion flags of [after_command] and emits one refresh request
    followed by its press/release pairs. *)
Lemma perform_outcome (self : EnOceanCover) (a : Action) (s : Attrs) :
  perform self a s =
    {| result := Ok ();
       attrs_out := after_command a s;
       emitted := ScheduleUpdate
         :: concat (replicate (pulses a) (press_release self (button_of self a))) |}.
Proof.
  destruct a; unfold perform, button_of;
    unfold_methods; destruct (reverse self); vm_compute; reflexivity.
Qed.

(** The whole outcome of decoding a relevant packet with value byte
    [val], for every integer [val]. *)
Lemma value_changed_outcome (self : EnOceanCover) (packet_data : list Z)
    (val : Z) (s : Attrs) :
  relevant self packet_data →
  packet_data !! 1%nat = Some val →
  value_changed self packet_data s =
    {| result := Ok ();
       attrs_out := after_telegram val s;
       emitted := [ScheduleUpdate] |}.
Proof.
  intros [H0 Hid] H1.
  rewrite (value_changed_relevant self packet_data val s H0 Hid H1).
  unfold after_telegram.
  destruct (val =? 0x7F) eqn:E7F; [reflexivity |].
  destruct (val =? 0x00) eqn:E00; [|destruct (val =? 0x64) eqn:E64].
  - apply Z.eqb_eq in E00. subst val. reflexivity.
  - apply Z.eqb_eq in E64. subst val. reflexivity.
  - reflexivity.
Qed.

(** A packet that fails the guard has no effect. *)
Lemma value_changed_not_relevant (self : EnOceanCover) (packet_data : list Z)
    (d0 : Z) (s : Attrs) :
  packet_data !! 0%nat = Some d0 →
  ¬ relevant self packet_data →
  value_changed self packet_data s = no_effect s.
Proof.
  intros H0 Hirr. unfold value_changed, getitem. rewrite H0, mret_bind.
  destruct (bool_decide (d0 = 0xD2) && bool_decide (slice packet_data 5 8 = dev_id self))
    eqn:Hguard; [| reflexivity].
  apply relevant_guard in Hguard as [-> Hid].
  exfalso. apply Hirr. split; assumption.
Qed.

(** A failed index read raises with nothing written and nothing emitted. *)
Lemma value_changed_raise_outcome (self : EnOceanCover) (packet_data : list Z)
    (s : Attrs) :
  result (value_changed self packet_data s) = Raise IndexError →
  value_changed self packet_data s =
    {| result := Raise IndexError; attrs_out := s; emitted := [] |}.
Proof.
  intros Hraise.
  apply value_changed_raises_iff in Hraise as [-> | [-> Hid]].
  - reflexivity.
  - unfold value_changed, getitem. simpl. rewrite mret_bind.
    unfold slice. simpl. rewrite Hid.
    rewrite bool_decide_eq_true_2 by reflexivity. reflexivity.
Qed.

Lemma relevant_dec (self : EnOceanCover) (packet_data : list Z) :
  relevant self packet_data ∨ ¬ relevant self packet_data.
Proof.
  unfold relevant.
  destruct (decide (packet_data !! 0%nat = Some 0xD2));
    destruct (decide (slice packet_data 5 8 = dev_id self)); tauto.
Qed.

(** The three ways a decoding can end. *)
Lemma value_changed_cases (self : EnOceanCover) (packet_data : list Z)
    (s : Attrs) :
  (∃ val, relevant self packet_data ∧ packet_data !! 1%nat = Some val
          ∧ value_changed self packet_data s =
              {| result := Ok (); attrs_out := after_telegram val s;
                 emitted := [ScheduleUpdate] |})
  ∨ (¬ (relevant self packet_data ∧ is_Some (packet_data !! 1%nat))
     ∧ (value_changed self packet_data s = no_effect s
        ∨ value_changed self packet_data s =
            {| result := Raise IndexError; attrs_out := s; emitted := [] |})).
Proof.
  destruct (relevant_dec self packet_data) as [Hrel | Hirr].
  - destruct (packet_data !! 1%nat) as [val |] eqn:H1.
    + left. exists val. split; [exact Hrel |]. split; [reflexivity |].
      apply value_changed_outcome; assumption.
    + right. split; [intros [_ [x Hx]]; congruence |]. right.
      apply value_changed_raise_outcome, value_changed_raises_iff.
      destruct packet_data as [| d0 [| d1 rest]];
        [now left | | discriminate H1].
      right. destruct Hrel as [Hd0 Hid]. simpl in Hd0.
      injection Hd0 as ->. split; [reflexivity |].
      rewrite <- Hid. reflexivity.
  - right. split; [tauto |].
    destruct (packet_data !! 0%nat) as [d0 |] eqn:H0.
    + left. apply (value_changed_not_relevant self packet_data d0); assumption.
    + right. destruct packet_data; [reflexivity | discriminate H0].
Qed.

(** The attributes after one interaction: those of a command, those of
    a relevant telegram with its value byte, or untouched. *)
Lemma handle_attrs_cases (self : EnOceanCover) (i : Input) (s : Attrs) :
  (∃ a, i = Command a ∧ attrs_out (handle self i s) = after_command a s)
  ∨ (∃ packet_data val,
       i = Telegram packet_data ∧ relevant self packet_data
       ∧ packet_data !! 1%nat = Some val
       ∧ attrs_out (handle self i s) = after_telegram val s)
  ∨ attrs_out (handle self i s) = s.
Proof.
  destruct i as [a | packet_data]; simpl.
  - left. exists a. rewrite perform_outcome. split; reflexivity.
  - right.
    destruct (value_changed_cases self packet_data s)
      as [(val & Hrel & H1 & ->) | [_ [-> | ->]]].
    + left. exists packet_data, val. repeat split; try apply Hrel; exact H1.
    + right. reflexivity.
    + right. reflexivity.
Qed.

Lemma run_cons (self : EnOceanCover) (i : Input) (inputs : list Input)
    (s : Attrs) :
  run self (i :: inputs) s = run self inputs (attrs_out (handle self i s)).
Proof. reflexivity. Qed.

(** An invariant of the attributes that commands and relevant telegrams
    keep holds after every sequence of interactions. *)
Lemma run_invariant (self : EnOceanCover) (I : Attrs → Prop) :
  (∀ a s, I s → I (after_command a s)) →
  (∀ val s, I s → I (after_telegram val s)) →
  ∀ inputs s, I s → I (run self inputs s).
Proof.
  intros Hcmd Htel inputs.
  induction inputs as [| i inputs IH]; intros s Hs; [exact Hs |].
  rewrite run_cons. apply IH.
  destruct (handle_attrs_cases self i s)
    as [(a & _ & ->) | [(d & val & _ & _ & _ & ->) | ->]]; auto.
Qed.

(** The bytes 5..7 of a packet, as far as they exist. *)
Lemma slice_lookups (l : list Z) :
  slice l 5 8
  = option_list (l !! 5%nat) ++ option_list (l !! 6%nat) ++ option_list (l !! 7%nat).
Proof.
  do 8 (destruct l as [| ? l]; [reflexivity |]). reflexivity.
Qed.

(** Commands leave the closed flag alone, also in sequence. *)
Lemma run_commands_keep_closed (self : EnOceanCover) (cmds : list Input)
    (s : Attrs) :
  forallb is_command cmds = true →
  is_closed (run self cmds s) = is_closed s.
Proof.
  revert s. induction cmds as [| i cmds IH]; intros s Hall; [reflexivity |].
  simpl in Hall. apply andb_true_iff in Hall as [Hi Hrest].
  rewrite run_cons, (IH _ Hrest).
  destruct i as [a | d]; [| discriminate Hi].
  simpl. rewrite perform_outcome. destruct a; reflexivity.
Qed.

(** Where a known position comes from, one interaction at a time. *)
Lemma run_position_source (self : EnOceanCover) (inputs : list Input)
    (s : Attrs) (p : Z) :
  current_cover_position (run self inputs s) = Some p →
  current_cover_position s = Some p
  ∨ ∃ packet_data, Telegram packet_data ∈ inputs
      ∧ relevant self packet_data ∧ packet_data !! 1%nat = Some p.
Proof.
  revert s. induction inputs as [| i inputs IH]; intros s Hp; [now left |].
  rewrite run_cons in Hp.
  destruct (IH _ Hp) as [Hstep | (d & Hin & Hrel & H1)].
  - destruct (handle_attrs_cases self i s)
      as [(a & _ & Heq) | [(d & val & -> & Hrel & H1 & Heq) | Heq]];
      rewrite Heq in Hstep.
    + left. destruct a; exact Hstep.
    + unfold after_telegram in Hstep.
      destruct (val =? 0x7F); simpl in Hstep; [now left |].
      right. exists d. injection Hstep as ->.
      split; [apply elem_of_cons; now left | split; assumption].
    + now left.
  - right. exists d. split; [apply elem_of_cons; now right | split; assumption].
Qed.

(** ** Further properties of the command encoder *)

(** Every telegram a command sends has the data and optional field of
    the common layout, whatever the subcommand and status. *)
Lemma perform_telegrams_Forall (self : EnOceanCover) (a : Action) (s : Attrs)
    (P : Sent → Prop) :
  (∀ sub st : Z,
     P {| sent_data := [0xF6; sub] ++ sender_id self ++ [st];
          sent_optional := [0x03] ++ dev_id self ++ [0x40];
          sent_type := 0x01 |}) →
  Forall P (telegrams (emitted (perform self a s))).
Proof.
  intros HP. rewrite perform_outcome.
  destruct a; unfold press_release, telegram_layout; simpl;
    repeat (apply List.Forall_cons; [apply HP |]); apply List.Forall_nil.
Qed.

(** X1: every command returns normally; its events are one refresh
    request, first, followed by [pulses] press/release pairs of the
    button [button_of] selects, so two telegrams, or four for the open
    and close tilt. *)
Theorem command_event_shape (self : EnOceanCover) (a : Action) (s : Attrs) :
  result (perform self a s) = Ok ()
  ∧ emitted (perform self a s)
    = ScheduleUpdate
        :: concat (replicate (pulses a) (press_release self (button_of self a)))
  ∧ notifications (emitted (perform self a s)) = 1%nat
  ∧ length (telegrams (emitted (perform self a s))) = (2 * pulses a)%nat.
Proof.
  rewrite perform_outcome. destruct a; repeat split.
Qed.

(** X2: a tilt command sends the telegrams of its base command twice,
    asks for a single refresh and leaves the attributes its base command
    leaves. *)
Theorem tilt_is_base_twice (self : EnOceanCover) (s : Attrs) :
  telegrams (emitted (open_cover_tilt self s))
  = telegrams (emitted (open_cover self s)) ++ telegrams (emitted (open_cover self s))
  ∧ telegrams (emitted (close_cover_tilt self s))
    = telegrams (emitted (close_cover self s)) ++ telegrams (emitted (close_cover self s))
  ∧ notifications (emitted (open_cover_tilt self s)) = 1%nat
  ∧ notifications (emitted (close_cover_tilt self s)) = 1%nat
  ∧ attrs_out (open_cover_tilt self s) = attrs_out (open_cover self s)
  ∧ attrs_out (close_cover_tilt self s) = attrs_out (close_cover self s).
Proof.
  change (open_cover_tilt self s) with (perform self OpenTilt s).
  change (close_cover_tilt self s) with (perform self CloseTilt s).
  change (open_cover self s) with (perform self Open s).
  change (close_cover self s) with (perform self Close s).
  rewrite !perform_outcome. repeat split.
Qed.


(** X4: a command writes motion flags only: the closed flag and the
    position stay as they were; the attributes it leaves do not depend
    on the identifiers or the orientation; and issuing it a second time
    leaves the attributes of the first. *)
Theorem command_state_effect (self self' : EnOceanCover) (a : Action)
    (s : Attrs) :
  is_closed (attrs_out (perform self a s)) = is_closed s
  ∧ current_cover_position (attrs_out (perform self a s))
    = current_cover_position s
  ∧ attrs_out (perform self a s) = attrs_out (perform self' a s)
  ∧ attrs_out (perform self a (attrs_out (perform self a s)))
    = attrs_out (perform self a s).
Proof.
  rewrite !perform_outcome. simpl. destruct a; repeat split.
Qed.

(** X5: in every telegram of every command the data field has three
    bytes more than the sender identifier, starts with [0xF6] and
    carries the sender identifier from index 2; the optional field has
    two bytes more than the device identifier, starts with [0x03], ends
    with [0x40] and carries the device identifier from index 1. *)
Theorem telegram_addressing (self : EnOceanCover) (a : Action) (s : Attrs) :
  Forall (λ t,
      length (sent_data t) = (length (sender_id self) + 3)%nat
      ∧ sent_data t !! 0%nat = Some 0xF6
      ∧ take (length (sender_id self)) (drop 2 (sent_data t)) = sender_id self
      ∧ length (sent_optional t) = (length (dev_id self) + 2)%nat
      ∧ sent_optional t !! 0%nat = Some 0x03
      ∧ take (length (dev_id self)) (drop 1 (sent_optional t)) = dev_id self
      ∧ last (sent_optional t) = Some 0x40)
    (telegrams (emitted (perform self a s))).
Proof.
  apply perform_telegrams_Forall. intros sub st. simpl.
  rewrite !drop_0, !length_app, !take_app_length. simpl.
  change (0x03 :: dev_id self ++ [0x40]) with ((0x03 :: dev_id self) ++ [0x40]).
  rewrite last_snoc.
  repeat split; lia.
Qed.

(** X6: the decoder of any device treats every telegram that a command
    sends as irrelevant: fed back as packet data it changes nothing,
    emits nothing and returns normally. *)
Theorem own_telegrams_are_ignored (self other : EnOceanCover) (a : Action)
    (s : Attrs) :
  Forall (λ t, ∀ s' : Attrs,
      value_changed other (sent_data t) s' = no_effect s')
    (telegrams (emitted (perform self a s))).
Proof.
  apply perform_telegrams_Forall. intros sub st s'.
  apply (value_changed_not_relevant other _ 0xF6); [reflexivity |].
  intros [H0 _]. discriminate H0.
Qed.

(** ** Further properties of the telegram decoder *)

(** X7: the decoder never sends a telegram and asks for at most one
    refresh; it asks for one exactly when the packet is relevant and has
    a value byte, and it never changes an attribute without asking. *)
Theorem decoder_events (self : EnOceanCover) (packet_data : list Z)
    (s : Attrs) :
  telegrams (emitted (value_changed self packet_data s)) = []
  ∧ (emitted (value_changed self packet_data s) = [ScheduleUpdate]
     ↔ relevant self packet_data ∧ is_Some (packet_data !! 1%nat))
  ∧ (emitted (value_changed self packet_data s) = []
     ↔ ¬ (relevant self packet_data ∧ is_Some (packet_data !! 1%nat)))
  ∧ (attrs_out (value_changed self packet_data s) ≠ s →
     emitted (value_changed self packet_data s) = [ScheduleUpdate]).
Proof.
  destruct (value_changed_cases self packet_data s)
    as [(val & Hrel & H1 & ->) | [Hnot [-> | ->]]]; simpl.
  - assert (Hyes : relevant self packet_data ∧ is_Some (packet_data !! 1%nat))
      by (split; [exact Hrel | exists val; exact H1]).
    split; [reflexivity |]. split; [tauto |]. split; [| reflexivity].
    split; [discriminate | tauto].
  - split; [reflexivity |]. split; [| split; [tauto | congruence]].
    split; [discriminate | tauto].
  - split; [reflexivity |]. split; [| split; [tauto | congruence]].
    split; [discriminate | tauto].
Qed.

(** X8: a device configured with an identifier of more than three bytes
    never reacts to a packet: bytes 5..7 are at most three bytes and
    cannot equal it. *)
Theorem long_identifier_never_matches (self : EnOceanCover)
    (packet_data : list Z) (s : Attrs) :
  (3 < length (dev_id self))%nat →
  attrs_out (value_changed self packet_data s) = s
  ∧ emitted (value_changed self packet_data s) = [].
Proof.
  intros Hlong.
  destruct (value_changed_cases self packet_data s)
    as [(val & [_ Hid] & _ & _) | [_ [-> | ->]]];
    [| split; reflexivity | split; reflexivity].
  exfalso. rewrite <- Hid in Hlong. unfold slice in Hlong.
  rewrite length_take in Hlong. lia.
Qed.

Lemma long_identifier_never_matches_witness :
  let packet_data := [0xD2; 0x32; 0x00; 0x00; 0x00; 0x05; 0x1A; 0x2B; 0x3C; 0x00] in
  attrs_out (value_changed long_id_cover packet_data init_attrs) = init_attrs
  ∧ emitted (value_changed long_id_cover packet_data init_attrs) = [].
Proof.
  apply (long_identifier_never_matches long_id_cover). simpl. lia.
Defined.

(** X9: when the decoder raises, it is an [IndexError] on a packet of
    at most one data byte, nothing was written and nothing emitted; for
    a device with a non-empty identifier it happens on the empty data
    field only. *)
Theorem decoder_raise_is_clean (self : EnOceanCover) (packet_data : list Z)
    (s : Attrs) (e : Exn) :
  result (value_changed self packet_data s) = Raise e →
  attrs_out (value_changed self packet_data s) = s
  ∧ emitted (value_changed self packet_data s) = []
  ∧ (length packet_data ≤ 1)%nat
  ∧ (dev_id self ≠ [] → packet_data = []).
Proof.
  intros Hraise. destruct e.
  rewrite (value_changed_raise_outcome self packet_data s Hraise). simpl.
  apply value_changed_raises_iff in Hraise as [-> | [-> Hid]].
  - repeat split. simpl. lia.
  - repeat split; [simpl; lia | intros Hne; contradiction].
Qed.

Lemma decoder_raise_is_clean_witness :
  attrs_out (value_changed (sample_cover false) [] init_attrs) = init_attrs
  ∧ emitted (value_changed (sample_cover false) [] init_attrs) = []
  ∧ (length (@nil Z) ≤ 1)%nat
  ∧ (dev_id (sample_cover false) ≠ [] → @nil Z = []).
Proof.
  apply (decoder_raise_is_clean (sample_cover false) [] init_attrs IndexError).
  reflexivity.
Defined.

(** X10: the decoder reads the data bytes 0, 1, 5, 6 and 7 only: two
    packets that agree there (also in which of them exist) are decoded
    with the same outcome, whatever their other bytes and lengths. *)
Theorem decoder_reads_five_bytes (self : EnOceanCover)
    (packet_data packet_data' : list Z) (s : Attrs) :
  packet_data !! 0%nat = packet_data' !! 0%nat →
  packet_data !! 1%nat = packet_data' !! 1%nat →
  packet_data !! 5%nat = packet_data' !! 5%nat →
  packet_data !! 6%nat = packet_data' !! 6%nat →
  packet_data !! 7%nat = packet_data' !! 7%nat →
  value_changed self packet_data s = value_changed self packet_data' s.
Proof.
  intros H0 H1 H5 H6 H7.
  unfold value_changed, getitem.
  rewrite (slice_lookups packet_data), (slice_lookups packet_data').
  rewrite H0, H1, H5, H6, H7. reflexivity.
Qed.

Lemma decoder_reads_five_bytes_witness :
  value_changed (sample_cover false)
    [0xD2; 0x32; 0x00; 0x00; 0x00; 0x05; 0x1A; 0x2B; 0x00; 0x00] init_attrs
  = value_changed (sample_cover false)
      [0xD2; 0x32; 0x11; 0x22; 0x33; 0x05; 0x1A; 0x2B] init_attrs.
Proof.
  apply (decoder_reads_five_bytes (sample_cover false)); reflexivity.
Defined.

(** ** State machine properties *)

(** X11: from any state, after any interactions, a relevant telegram
    with value byte [0x00] leaves exactly: open, position 0, no motion;
    one with [0x64] leaves exactly: closed, position 100, no motion. *)
Theorem endpoint_telegram_resets_state (self : EnOceanCover)
    (packet_data : list Z) (val : Z) (inputs : list Input) (s : Attrs) :
  relevant self packet_data →
  packet_data !! 1%nat = Some val →
  val = 0x00 ∨ val = 0x64 →
  run self (inputs ++ [Telegram packet_data]) s =
    {| is_closed := Some (val =? 0x64); is_closing := None;
       is_opening := None; current_cover_position := Some val |}.
Proof.
  intros Hrel H1 Hval. rewrite run_app, run_cons. simpl.
  rewrite (value_changed_outcome self packet_data val _ Hrel H1). simpl.
  destruct Hval as [-> | ->]; reflexivity.
Qed.

Lemma endpoint_telegram_resets_state_witness :
  run (sample_cover true)
    ([Command Close; Telegram (sample_packet 0x7F)] ++ [Telegram (sample_packet 0x64)])
    init_attrs
  = {| is_closed := Some (0x64 =? 0x64); is_closing := None;
       is_opening := None; current_cover_position := Some 0x64 |}.
Proof.
  apply (endpoint_telegram_resets_state (sample_cover true));
    [split; reflexivity | reflexivity | right; reflexivity].
Defined.

(** X12: a relevant telegram with any value byte other than [0x7F],
    also outside 0..100, that follows any command is decoded into
    position [val] with both motion flags cleared; the closed flag is
    open at 0, closed at 100 and otherwise as it was before the command. *)
Theorem stopped_telegram_overrides_command (self : EnOceanCover) (a : Action)
    (packet_data : list Z) (val : Z) (s : Attrs) :
  relevant self packet_data →
  packet_data !! 1%nat = Some val →
  val ≠ 0x7F →
  run self [Command a; Telegram packet_data] s =
    {| is_closed := if val =? 0x00 then Some false
                    else if val =? 0x64 then Some true
                    else is_closed s;
       is_closing := None; is_opening := None;
       current_cover_position := Some val |}.
Proof.
  intros Hrel H1 Hval. rewrite !run_cons. simpl.
  rewrite (value_changed_outcome self packet_data val _ Hrel H1).
  rewrite perform_outcome. simpl. unfold after_telegram.
  apply Z.eqb_neq in Hval. rewrite Hval.
  destruct a; reflexivity.
Qed.

Lemma stopped_telegram_overrides_command_witness :
  run (sample_cover false) [Command Open; Telegram (sample_packet 0xC8)] init_attrs
  = {| is_closed := if 0xC8 =? 0x00 then Some false
                    else if 0xC8 =? 0x64 then Some true
                    else is_closed init_attrs;
       is_closing := None; is_opening := None;
       current_cover_position := Some 0xC8 |}.
Proof.
  apply (stopped_telegram_overrides_command (sample_cover false) Open);
    [split; reflexivity | reflexivity | discriminate].
Defined.

(** X13: when a moving telegram ([0x7F]) is followed, after any
    commands, by a relevant telegram with a value byte other than
    [0x7F], [0x00] and [0x64], the closed flag is unknown, the position
    is the value byte and no motion flag is set. *)
Theorem moving_then_stopped (self : EnOceanCover) (moving stopped : list Z)
    (val : Z) (cmds : list Input) (s : Attrs) :
  relevant self moving →
  moving !! 1%nat = Some 0x7F →
  relevant self stopped →
  stopped !! 1%nat = Some val →
  val ≠ 0x7F → val ≠ 0x00 → val ≠ 0x64 →
  forallb is_command cmds = true →
  run self (Telegram moving :: cmds ++ [Telegram stopped]) s =
    {| is_closed := None; is_closing := None; is_opening := None;
       current_cover_position := Some val |}.
Proof.
  intros Hm Hm1 Hs Hs1 H7F H00 H64 Hcmds.
  rewrite run_cons, run_app, run_cons. simpl.
  rewrite (value_changed_outcome self stopped val _ Hs Hs1). simpl.
  unfold after_telegram at 1.
  apply Z.eqb_neq in H7F, H00, H64. rewrite H7F, H00, H64.
  rewrite (run_commands_keep_closed self cmds _ Hcmds).
  rewrite (value_changed_outcome self moving 0x7F _ Hm Hm1). reflexivity.
Qed.

Lemma moving_then_stopped_witness :
  run (sample_cover false)
    (Telegram (sample_packet 0x7F) :: [Command Stop] ++ [Telegram (sample_packet 0x01)])
    (run (sample_cover false) [Telegram (sample_packet 0x64); Command Open] init_attrs)
  = {| is_closed := None; is_closing := None; is_opening := None;
       current_cover_position := Some 0x01 |}.
Proof.
  apply (moving_then_stopped (sample_cover false));
    [split; reflexivity | reflexivity | split; reflexivity | reflexivity
    | discriminate | discriminate | discriminate | reflexivity].
Defined.

(** X14: in every state reached from a fresh cover no motion flag is
    ever [False]: each is unset or [True]. *)
Theorem motion_flags_never_false (self : EnOceanCover) (inputs : list Input) :
  is_opening (run self inputs init_attrs) ≠ Some false
  ∧ is_closing (run self inputs init_attrs) ≠ Some false.
Proof.
  apply (run_invariant self
           (λ s, is_opening s ≠ Some false ∧ is_closing s ≠ Some false)).
  - intros a s [Ho Hc]. destruct a; simpl; split; auto; discriminate.
  - intros val s [Ho Hc]. unfold after_telegram.
    destruct (val =? 0x7F); simpl; split; auto; discriminate.
  - split; discriminate.
Qed.

(** X15: in every state reached from a fresh cover, a known closed
    flag comes with a known position. *)
Theorem closed_flag_known_implies_position_known (self : EnOceanCover)
    (inputs : list Input) :
  is_Some (is_closed (run self inputs init_attrs)) →
  is_Some (current_cover_position (run self inputs init_attrs)).
Proof.
  apply (run_invariant self
           (λ s, is_Some (is_closed s) → is_Some (current_cover_position s))).
  - intros a s Hs. destruct a; exact Hs.
  - intros val s Hs. unfold after_telegram.
    destruct (val =? 0x7F); simpl.
    + intros [x Hx]. discriminate Hx.
    + intros _. eexists. reflexivity.
  - intros [x Hx]. discriminate Hx.
Qed.

Lemma closed_flag_known_implies_position_known_witness :
  is_Some (current_cover_position
             (run (sample_cover false)
                [Telegram (sample_packet 0x64); Telegram (sample_packet 0x32)]
                init_attrs)).
Proof.
  apply (closed_flag_known_implies_position_known (sample_cover false)).
  exists true. reflexivity.
Defined.

(** X16: a position known in a state reached from a fresh cover is the
    value byte of a relevant telegram among the interactions: commands
    and irrelevant packets never produce a position. *)
Theorem position_comes_from_a_telegram (self : EnOceanCover)
    (inputs : list Input) (p : Z) :
  current_cover_position (run self inputs init_attrs) = Some p →
  ∃ packet_data, Telegram packet_data ∈ inputs
    ∧ relevant self packet_data ∧ packet_data !! 1%nat = Some p.
Proof.
  intros Hp.
  destruct (run_position_source self inputs init_attrs p Hp) as [Hinit | Hsrc];
    [discriminate Hinit | exact Hsrc].
Qed.

Lemma position_comes_from_a_telegram_witness :
  ∃ packet_data,
    Telegram packet_data
      ∈ [Command Open; Telegram (sample_packet 0x32); Command Stop]
    ∧ relevant (sample_cover false) packet_data
    ∧ packet_data !! 1%nat = Some 0x32.
Proof.
  apply (position_comes_from_a_telegram (sample_cover false)).
  reflexivity.
Defined.
